(** * Octahedral direction codec (oct_test.py, simulate_octa.py)

    The two Python scripts implement the octahedral projection of a 3D
    direction onto the unit square ([encode]) and its inverse ([decode]).
    The code is written once, over an interface of the float operations the
    scripts use, and run at two carriers:

    - [R], exact real arithmetic (the data model of the specification: a
      direction is a triple of real numbers), where the universal
      properties are proved;
    - [float], IEEE 754 binary64 as CPython's [float], where the code
      evaluates and the concrete fixtures are checked bit for bit.

    simulate_octa.py also classifies a decoded direction into a face of a
    cube ([sample_cubemap], [face_colors]); both scripts end with a loop
    over a list of samples. *)

From Stdlib Require Import ZArith String List.
From Stdlib Require Import PrimFloat FloatAxioms.
From Stdlib Require Import Reals Lra Psatz Bool.
Import ListNotations.

Set Implicit Arguments.

(** ** Python exceptions the arithmetic can raise *)

Inductive PyErr : Set :=
| ZeroDivisionError   (* [a / b] with [b == 0] *)
| ValueError.         (* [math.sqrt] of a negative number *)

Inductive Py (A : Type) : Type :=
| Ok (a : A)
| Raise (e : PyErr).

Arguments Ok {A} a.
Arguments Raise {A} e.

Definition bind {A B : Type} (m : Py A) (k : A -> Py B) : Py B :=
  match m with
  | Ok a => k a
  | Raise e => Raise e
  end.

Declare Scope py_scope.
Delimit Scope py_scope with py.

Notation "x <- m ;; k" := (bind m (fun x => k))
  (at level 61, m at next level, right associativity) : py_scope.

(** ** The float operations of the scripts *)

Class PyFloat (F : Type) : Type := {
  f_add : F -> F -> F;
  f_sub : F -> F -> F;
  f_mul : F -> F -> F;
  f_quot : F -> F -> F;       (* the quotient, for a non-zero divisor *)
  f_root : F -> F;            (* the square root, for a non-negative argument *)
  f_abs : F -> F;
  f_ltb : F -> F -> bool;     (* a < b *)
  f_geb : F -> F -> bool;     (* a >= b *)
  f_eqb : F -> F -> bool;     (* a == b *)
  lit_0 : F;                  (* 0 *)
  lit_1 : F;                  (* 1.0 *)
  lit_m1 : F;                 (* -1.0 *)
  lit_2 : F;                  (* 2.0 *)
  lit_half : F;               (* 0.5 *)
  lit_1em5 : F                (* 1e-5 *)
}.

Section PyOps.
Context {F : Type} `{PyFloat F}.

(** [a / b]: float division raises on a zero divisor. *)
Definition py_div (a b : F) : Py F :=
  if f_eqb b lit_0 then Raise ZeroDivisionError else Ok (f_quot a b).

(** [math.sqrt(a)]: raises on a negative argument. *)
Definition math_sqrt (a : F) : Py F :=
  if f_ltb a lit_0 then Raise ValueError else Ok (f_root a).

(** [max(a, b)]: the first argument unless the second is greater. *)
Definition py_max (a b : F) : F :=
  if f_ltb a b then b else a.
End PyOps.

Infix "+" := f_add : py_scope.
Infix "-" := f_sub : py_scope.
Infix "*" := f_mul : py_scope.
Infix "/" := py_div : py_scope.
Infix "<?" := f_ltb (at level 70, no associativity) : py_scope.
Infix ">=?" := f_geb (at level 70, no associativity) : py_scope.

(** ** Exact real arithmetic *)

Definition Rltb (a b : R) : bool := if Rlt_dec a b then true else false.
Definition Rgeb (a b : R) : bool := if Rge_dec a b then true else false.
Definition Reqb (a b : R) : bool := if Req_dec_T a b then true else false.

#[export] Instance PyFloat_R : PyFloat R := {|
  f_add := Rplus;
  f_sub := Rminus;
  f_mul := Rmult;
  f_quot := Rdiv;
  f_root := sqrt;
  f_abs := Rabs;
  f_ltb := Rltb;
  f_geb := Rgeb;
  f_eqb := Reqb;
  lit_0 := 0%R;
  lit_1 := 1%R;
  lit_m1 := (-1)%R;
  lit_2 := 2%R;
  lit_half := (1 / 2)%R;
  lit_1em5 := (1 / 100000)%R
|}.

(** ** IEEE 754 binary64 *)

#[export] Instance PyFloat_binary64 : PyFloat float := {|
  f_add := PrimFloat.add;
  f_sub := PrimFloat.sub;
  f_mul := PrimFloat.mul;
  f_quot := PrimFloat.div;
  f_root := PrimFloat.sqrt;
  f_abs := PrimFloat.abs;
  f_ltb := PrimFloat.ltb;
  f_geb := fun a b => PrimFloat.leb b a;
  f_eqb := PrimFloat.eqb;
  lit_0 := 0%float;
  lit_1 := 1%float;
  lit_m1 := (-1)%float;
  lit_2 := 2%float;
  lit_half := 0.5%float;
  lit_1em5 := 0x1.4f8b588e368f1p-17%float   (* the binary64 nearest to 1e-5 *)
|}.

(** ** The rest of the Python the scripts use *)

Section PyRest.
Context {F : Type} `{PyFloat F}.

(** [a > b] on floats is [b < a]. *)
Definition f_gtb (a b : F) : bool := f_ltb b a.
End PyRest.

Infix ">?" := f_gtb (at level 70, no associativity) : py_scope.

(** A dict with string keys, as the list of its items in insertion order.
    [d[key]] is [dict_get d key]; [None] stands for the [KeyError] of a
    missing key. *)
Definition dict (V : Type) : Type := list (string * V).

Fixpoint dict_get {V : Type} (d : dict V) (key : string) : option V :=
  match d with
  | [] => None
  | (k, v) :: rest => if String.eqb k key then Some v else dict_get rest key
  end.

(** What stops a script's loop. *)
Inductive Exc : Set :=
| Arith (e : PyErr)    (* raised by the arithmetic of [encode] or [decode] *)
| KeyError.            (* raised by a dict lookup *)

(** [for s in samples: print(body(s))]: the lines printed, in order, and
    the exception that stopped the loop, if one did. *)
Fixpoint for_print {I L : Type} (body : I -> Exc + L) (samples : list I) :
  list L * option Exc :=
  match samples with
  | [] => ([], None)
  | s :: rest =>
      match body s with
      | inl e => ([], Some e)
      | inr line =>
          let '(lines, stop) := for_print body rest in (line :: lines, stop)
      end
  end.

(** A call that can raise an arithmetic error, inside a loop body. *)
Definition arith {A : Type} (m : Py A) : Exc + A :=
  match m with
  | Ok a => inr a
  | Raise e => inl (Arith e)
  end.

(** A dict lookup inside a loop body. *)
Definition lookup {A : Type} (m : option A) : Exc + A :=
  match m with
  | Some a => inr a
  | None => inl KeyError
  end.

(** ** oct_test.py *)

Module OctTest.
Section Code.
Context {F : Type} `{PyFloat F}.
Local Open Scope py_scope.

Definition encode (dirx diry dirz : F) : Py (F * F) :=
  length <- math_sqrt (dirx * dirx + diry * diry + dirz * dirz) ;;
  dirx <- dirx / length ;;
  diry <- diry / length ;;
  dirz <- dirz / length ;;
  let octX := dirx in
  let octY := dirz in
  let octZ := diry in
  let denom := py_max (f_abs octX + f_abs octY + f_abs octZ) lit_1em5 in
  octX <- octX / denom ;;
  octY <- octY / denom ;;
  octZ <- octZ / denom ;;
  let uvx := octX in
  let uvy := octY in
  let '(uvx, uvy) :=
    if octZ <? lit_0 then
      let signDirX := if octX >=? lit_0 then lit_1 else lit_m1 in
      let signDirY := if octY >=? lit_0 then lit_1 else lit_m1 in
      let uvx := (lit_1 - f_abs octY) * signDirX in
      let uvy := (lit_1 - f_abs octX) * signDirY in
      (uvx, uvy)
    else (uvx, uvy) in
  Ok (uvx * lit_half + lit_half, uvy * lit_half + lit_half).

Definition decode (u v : F) : Py (F * F * F) :=
  let f_x := u * lit_2 - lit_1 in
  let f_y := v * lit_2 - lit_1 in
  let n_x := f_x in
  let n_y := f_y in
  let n_z := lit_1 - f_abs f_x - f_abs f_y in
  let '(n_x, n_y) :=
    if n_z <? lit_0 then
      let signDirX := if n_x >=? lit_0 then lit_1 else lit_m1 in
      let signDirY := if n_y >=? lit_0 then lit_1 else lit_m1 in
      let tmp_x := (lit_1 - f_abs n_y) * signDirX in
      let tmp_y := (lit_1 - f_abs n_x) * signDirY in
      let n_x := tmp_x in
      let n_y := tmp_y in
      (n_x, n_y)
    else (n_x, n_y) in
  let dirx := n_x in
  let diry := n_z in
  let dirz := n_y in
  length <- math_sqrt (dirx * dirx + diry * diry + dirz * dirz) ;;
  a <- dirx / length ;;
  b <- diry / length ;;
  c <- dirz / length ;;
  Ok (a, b, c).

(** Lines 43-52.  The integer components are the floats of the same
    value. *)
Definition samples : list (F * F * F) :=
  [ (lit_1, lit_0, lit_0);
    (lit_m1, lit_0, lit_0);
    (lit_0, lit_1, lit_0);
    (lit_0, lit_m1, lit_0);
    (lit_0, lit_0, lit_1);
    (lit_0, lit_0, lit_m1);
    (lit_1, lit_1, lit_1);
    (lit_1, lit_m1, lit_half) ].

(** Lines 55-57, the body of the loop: the line [(dir, uv, dec)]. *)
Definition body (dir : F * F * F) :
  Exc + ((F * F * F) * (F * F) * (F * F * F)) :=
  let '(dirx, diry, dirz) := dir in
  match arith (encode dirx diry dirz) with
  | inl e => inl e
  | inr uv =>
      match arith (decode (fst uv) (snd uv)) with
      | inl e => inl e
      | inr dec => inr (dir, uv, dec)
      end
  end.

(** Lines 54-57. *)
Definition main : list ((F * F * F) * (F * F) * (F * F * F)) * option Exc :=
  for_print body samples.
End Code.
End OctTest.

(** ** simulate_octa.py *)

Module SimulateOcta.
Section Code.
Context {F : Type} `{PyFloat F}.
Local Open Scope py_scope.

(** Lines 3-10. *)
Definition face_colors : dict (Z * Z * Z) :=
  [ ("+X", (1, 0, 0));
    ("-X", (0, 1, 0));
    ("+Y", (0, 0, 1));
    ("-Y", (1, 1, 0));
    ("+Z", (1, 0, 1));
    ("-Z", (0, 1, 1)) ]%Z%string.

Definition sample_cubemap (dirx diry dirz : F) : option (Z * Z * Z) :=
  let ax := f_abs dirx in
  let ay := f_abs diry in
  let az := f_abs dirz in
  if (ax >=? ay) && (ax >=? az) then
    if dirx >? lit_0 then dict_get face_colors "+X"
    else dict_get face_colors "-X"
  else if (ay >=? ax) && (ay >=? az) then
    if diry >? lit_0 then dict_get face_colors "+Y"
    else dict_get face_colors "-Y"
  else
    if dirz >? lit_0 then dict_get face_colors "+Z"
    else dict_get face_colors "-Z".

Definition decode (u v : F) : Py (F * F * F) :=
  let f_x := u * lit_2 - lit_1 in
  let f_y := v * lit_2 - lit_1 in
  let n_x := f_x in
  let n_y := f_y in
  let n_z := lit_1 - f_abs f_x - f_abs f_y in
  let '(n_x, n_y) :=
    if n_z <? lit_0 then
      let signDirX := if n_x >=? lit_0 then lit_1 else lit_m1 in
      let signDirY := if n_y >=? lit_0 then lit_1 else lit_m1 in
      let tmp_x := (lit_1 - f_abs n_y) * signDirX in
      let tmp_y := (lit_1 - f_abs n_x) * signDirY in
      let n_x := tmp_x in
      let n_y := tmp_y in
      (n_x, n_y)
    else (n_x, n_y) in
  let dirx := n_x in
  let diry := n_z in
  let dirz := n_y in
  length <- math_sqrt (dirx * dirx + diry * diry + dirz * dirz) ;;
  a <- dirx / length ;;
  b <- diry / length ;;
  c <- dirz / length ;;
  Ok (a, b, c).

(** Lines 54-56, the body of the loop: the line [(uv, d, col)]. *)
Definition body (uv : F * F) : Exc + ((F * F) * (F * F * F) * (Z * Z * Z)) :=
  match arith (decode (fst uv) (snd uv)) with
  | inl e => inl e
  | inr d =>
      let '(dirx, diry, dirz) := d in
      match lookup (sample_cubemap dirx diry dirz) with
      | inl e => inl e
      | inr col => inr (uv, d, col)
      end
  end.

(** Lines 53-56, over the list of samples. *)
Definition main (samples : list (F * F)) :
  list ((F * F) * (F * F * F) * (Z * Z * Z)) * option Exc :=
  for_print body samples.
End Code.
End SimulateOcta.

(** simulate_octa.py line 51, at binary64: [0.1] is the float
    [0x1.999999999999ap-4] and [0.9] the float [0x1.ccccccccccccdp-1]. *)
Definition samples_binary64 : list (float * float) :=
  let c1 := 0x1.999999999999ap-4%float in
  let c9 := 0x1.ccccccccccccdp-1%float in
  let c5 := 0.5%float in
  [ (c5, c5); (c1, c5); (c9, c5); (c5, c1); (c5, c9);
    (c1, c1); (c9, c9); (c1, c9); (c9, c1) ].

(** ** Observation points

    The intermediate values the properties speak about, cut out of the
    straight-line code above; each function is the named span of source
    lines, and [encode_steps], [decode_steps] show the code is their
    composition. *)

Module Steps.
Section Code.
Context {F : Type} `{PyFloat F}.
Local Open Scope py_scope.

(** oct_test.py lines 4-10: the normalized input, remapped to
    [(octX, octY, octZ)]. *)
Definition normalized (dirx diry dirz : F) : Py (F * F * F) :=
  length <- math_sqrt (dirx * dirx + diry * diry + dirz * dirz) ;;
  dirx <- dirx / length ;;
  diry <- diry / length ;;
  dirz <- dirz / length ;;
  Ok (dirx, dirz, diry).

(** Line 11: the L1 norm, and [denom], its maximum with the floor. *)
Definition l1norm (octX octY octZ : F) : F :=
  f_abs octX + f_abs octY + f_abs octZ.

Definition denom (octX octY octZ : F) : F :=
  py_max (l1norm octX octY octZ) lit_1em5.

(** Lines 4-14: [(octX, octY, octZ)] after the division by [denom]. *)
Definition projected (dirx diry dirz : F) : Py (F * F * F) :=
  n <- normalized dirx diry dirz ;;
  let '(octX, octY, octZ) := n in
  let denom := denom octX octY octZ in
  octX <- octX / denom ;;
  octY <- octY / denom ;;
  octZ <- octZ / denom ;;
  Ok (octX, octY, octZ).

(** Lines 18-19 and 31-32: the per-axis sign factor. *)
Definition signDir (c : F) : F :=
  if c >=? lit_0 then lit_1 else lit_m1.

(** Lines 20-21 and 33-34: the fold of a point of the diamond. *)
Definition fold (x y : F) : F * F :=
  ((lit_1 - f_abs y) * signDir x, (lit_1 - f_abs x) * signDir y).

(** Lines 15-21: [(uvx, uvy)] before the final scaling. *)
Definition prescaled (octX octY octZ : F) : F * F :=
  if octZ <? lit_0 then fold octX octY else (octX, octY).

(** Line 22. *)
Definition scaled (uv : F * F) : F * F :=
  (fst uv * lit_half + lit_half, snd uv * lit_half + lit_half).

(** Lines 25-29: the point of the diamond and the third coordinate. *)
Definition diamond (u v : F) : F * F * F :=
  let f_x := u * lit_2 - lit_1 in
  let f_y := v * lit_2 - lit_1 in
  (f_x, f_y, lit_1 - f_abs f_x - f_abs f_y).

(** Line 30: the test of the unfold branch. *)
Definition unfolds (u v : F) : bool :=
  let '(_, _, n_z) := diamond u v in n_z <? lit_0.

(** Lines 25-39: [(dirx, diry, dirz)] before the final normalization. *)
Definition unnormalized (u v : F) : F * F * F :=
  let '(f_x, f_y, n_z) := diamond u v in
  let '(n_x, n_y) := if unfolds u v then fold f_x f_y else (f_x, f_y) in
  (n_x, n_z, n_y).

(** Lines 40-41. *)
Definition normalize (d : F * F * F) : Py (F * F * F) :=
  let '(dirx, diry, dirz) := d in
  length <- math_sqrt (dirx * dirx + diry * diry + dirz * dirz) ;;
  a <- dirx / length ;;
  b <- diry / length ;;
  c <- dirz / length ;;
  Ok (a, b, c).
End Code.
End Steps.

(** ** Vocabulary of the properties, at exact real arithmetic *)

Local Open Scope R_scope.

(** The squared length and the Euclidean norm of a triple. *)
Definition sumsq (x y z : R) : R := x * x + y * y + z * z.
Definition norm (x y z : R) : R := sqrt (sumsq x y z).

(** The point of the octahedron a direction projects to: the normalized
    direction, remapped to [(x, z, y)] and divided by its L1 norm. *)
Definition octa (x y z : R) : R * R * R :=
  let a := x / norm x y z in
  let b := z / norm x y z in
  let c := y / norm x y z in
  (a / Steps.l1norm a b c, b / Steps.l1norm a b c, c / Steps.l1norm a b c).

(** ** Vocabulary of the properties, at binary64 *)

(** A float that is not below zero: a zero, a NaN, or a number or an
    infinity with the sign bit clear. *)
Definition nonneg (f : SpecFloat.spec_float) : bool :=
  match f with
  | SpecFloat.S754_zero _ | SpecFloat.S754_nan => true
  | SpecFloat.S754_infinity s | SpecFloat.S754_finite s _ _ => negb s
  end.

(** [abs(a - b) <= tol]. *)
Definition within (tol a b : float) : bool :=
  PrimFloat.leb (PrimFloat.abs (a - b)) tol.

(** A line [(dir, uv, dec)] of oct_test.py passes when [uv] is in the
    unit square and [dec] is [dir / |dir|], computed at binary64, within
    [tol] on each component. *)
Definition roundtrip_within (tol : float)
  (line : (float * float * float) * (float * float) * (float * float * float)) :
  bool :=
  let '(dir, (u, v), (dx, dy, dz)) := line in
  match Steps.normalize dir with
  | Ok (ex, ey, ez) =>
      PrimFloat.leb 0 u && PrimFloat.leb u 1 &&
      PrimFloat.leb 0 v && PrimFloat.leb v 1 &&
      within tol dx ex && within tol dy ey && within tol dz ez
  | Raise _ => false
  end.

(** ** The code is the composition of its steps *)

Section StepsFacts.
Context {F : Type} `{PyFloat F}.
Local Open Scope py_scope.

Lemma encode_steps (dirx diry dirz : F) :
  OctTest.encode dirx diry dirz =
  (o <- Steps.projected dirx diry dirz ;;
   let '(octX, octY, octZ) := o in
   Ok (Steps.scaled (Steps.prescaled octX octY octZ))).
Proof.
  unfold OctTest.encode, Steps.projected, Steps.normalized, Steps.scaled,
    Steps.prescaled, Steps.fold, Steps.signDir, Steps.denom, Steps.l1norm.
  destruct (math_sqrt _) as [len|]; cbn; [|reflexivity].
  repeat (match goal with |- context [py_div ?a ?b] =>
            destruct (py_div a b); cbn; [|reflexivity] end).
  match goal with |- context [if ?c then _ else _] => destruct c end;
    reflexivity.
Qed.

Lemma decode_steps (u v : F) :
  OctTest.decode u v = Steps.normalize (Steps.unnormalized u v).
Proof.
  unfold OctTest.decode, Steps.normalize, Steps.unnormalized, Steps.unfolds,
    Steps.diamond, Steps.fold, Steps.signDir.
  match goal with |- context [if ?c then _ else _] => destruct c end;
    reflexivity.
Qed.
End StepsFacts.

(** ** The operations at exact real arithmetic *)

Module Exact.

Lemma Rltb_true (a b : R) : a < b -> Rltb a b = true.
Proof. intros Hab. unfold Rltb. destruct (Rlt_dec a b); [reflexivity | contradiction]. Qed.

Lemma Rltb_false (a b : R) : b <= a -> Rltb a b = false.
Proof. intros Hab. unfold Rltb. destruct (Rlt_dec a b); [lra | reflexivity]. Qed.




Lemma Reqb_false (a b : R) : a <> b -> Reqb a b = false.
Proof. intros Hab. unfold Reqb. destruct (Req_dec_T a b); [contradiction | reflexivity]. Qed.

Lemma py_div_ok (a b : R) : b <> 0 -> py_div a b = Ok (a / b).
Proof. intros Hb. unfold py_div. cbn. now rewrite Reqb_false. Qed.


Lemma math_sqrt_ok (a : R) : 0 <= a -> math_sqrt a = Ok (sqrt a).
Proof. intros Ha. unfold math_sqrt. cbn. now rewrite Rltb_false. Qed.

Lemma py_max_left (a b : R) : b <= a -> py_max a b = a.
Proof. intros Hab. unfold py_max. cbn. now rewrite Rltb_false. Qed.

Lemma py_max_right (a b : R) : a < b -> py_max a b = b.
Proof. intros Hab. unfold py_max. cbn. now rewrite Rltb_true. Qed.

Lemma sumsq_nonneg (x y z : R) : 0 <= sumsq x y z.
Proof. unfold sumsq. nra. Qed.

Lemma sumsq_pos (x y z : R) : (x, y, z) <> (0, 0, 0) -> 0 < sumsq x y z.
Proof.
  intros Hd. unfold sumsq.
  destruct (Req_dec x 0) as [-> | Hx]; [| nra].
  destruct (Req_dec y 0) as [-> | Hy]; [| nra].
  destruct (Req_dec z 0) as [-> | Hz]; [| nra].
  now contradiction Hd.
Qed.

Lemma norm_pos (x y z : R) : (x, y, z) <> (0, 0, 0) -> 0 < norm x y z.
Proof. intros Hd. apply sqrt_lt_R0. now apply sumsq_pos. Qed.

Lemma norm_sqr (x y z : R) : norm x y z * norm x y z = sumsq x y z.
Proof. apply sqrt_sqrt, sumsq_nonneg. Qed.

Lemma sumsq_scale (k x y z : R) :
  k <> 0 -> sumsq (x / k) (y / k) (z / k) = sumsq x y z / (k * k).
Proof. intros Hk. unfold sumsq. now field. Qed.


(** The normalized input is a unit vector. *)
Lemma sumsq_normalized (x y z : R) :
  (x, y, z) <> (0, 0, 0) ->
  sumsq (x / norm x y z) (y / norm x y z) (z / norm x y z) = 1.
Proof.
  intros Hd. pose proof (norm_pos Hd) as Hn.
  rewrite sumsq_scale by lra. rewrite norm_sqr.
  apply sumsq_pos in Hd. field. lra.
Qed.

(** The L1 norm dominates the Euclidean one. *)
Lemma l1_ge_1 (a b c : R) : sumsq a b c = 1 -> 1 <= Rabs a + Rabs b + Rabs c.
Proof.
  unfold sumsq. intros Hs.
  pose proof (Rabs_pos a). pose proof (Rabs_pos b). pose proof (Rabs_pos c).
  assert (Ha : Rabs a * Rabs a = a * a) by (unfold Rabs; destruct (Rcase_abs a); ring).
  assert (Hb : Rabs b * Rabs b = b * b) by (unfold Rabs; destruct (Rcase_abs b); ring).
  assert (Hc : Rabs c * Rabs c = c * c) by (unfold Rabs; destruct (Rcase_abs c); ring).
  nra.
Qed.
(** *** The steps of [encode] *)

Lemma normalized_exact (x y z : R) :
  (x, y, z) <> (0, 0, 0) ->
  Steps.normalized x y z =
  Ok (x / norm x y z, z / norm x y z, y / norm x y z).
Proof.
  intros Hd. pose proof (norm_pos Hd) as Hn.
  unfold Steps.normalized. cbn [f_add f_mul PyFloat_R].
  rewrite math_sqrt_ok by apply sumsq_nonneg.
  fold (sumsq x y z). fold (norm x y z). cbn [bind].
  now rewrite !py_div_ok by lra.
Qed.


Lemma l1norm_exact (a b c : R) : Steps.l1norm a b c = Rabs a + Rabs b + Rabs c.
Proof. reflexivity. Qed.

(** On a unit vector the floor of [denom] is not reached. *)
Lemma denom_unit (a b c : R) :
  sumsq a b c = 1 -> Steps.denom a b c = Steps.l1norm a b c.
Proof.
  intros Hs. unfold Steps.denom. apply py_max_left.
  rewrite l1norm_exact. pose proof (l1_ge_1 Hs). cbn. lra.
Qed.

Lemma projected_unit (x y z : R) (a b c : R) :
  Steps.normalized x y z = Ok (a, b, c) ->
  sumsq a b c = 1 ->
  Steps.projected x y z =
  Ok (a / Steps.l1norm a b c, b / Steps.l1norm a b c, c / Steps.l1norm a b c).
Proof.
  intros Hn Hs. unfold Steps.projected. rewrite Hn. cbn [bind].
  rewrite (denom_unit Hs).
  pose proof (l1_ge_1 Hs) as Hl. rewrite <- l1norm_exact in Hl.
  now rewrite !py_div_ok by lra.
Qed.

(** *** The fold and the steps of [decode] *)




Ltac case_abs :=
  unfold Rabs in *;
  repeat match goal with
         | |- context [Rcase_abs ?c] => destruct (Rcase_abs c)
         | H : context [Rcase_abs ?c] |- _ => destruct (Rcase_abs c)
         end.







Lemma prescaled_upper (p q r : R) : 0 <= r -> Steps.prescaled p q r = (p, q).
Proof. intros Hr. unfold Steps.prescaled. cbn. now rewrite Rltb_false. Qed.


Lemma normalize_exact (dx dy dz : R) :
  (dx, dy, dz) <> (0, 0, 0) ->
  Steps.normalize (dx, dy, dz) =
  Ok (dx / norm dx dy dz, dy / norm dx dy dz, dz / norm dx dy dz).
Proof.
  intros Hd. pose proof (norm_pos Hd) as Hn.
  unfold Steps.normalize. cbn [f_add f_mul PyFloat_R].
  rewrite math_sqrt_ok by apply sumsq_nonneg.
  fold (sumsq dx dy dz). fold (norm dx dy dz). cbn [bind].
  now rewrite !py_div_ok by lra.
Qed.

(** The triple [decode] normalizes is never the zero vector: either the
    third coordinate is negative, or the point is in the diamond and the
    three absolute values add up to 1. *)
Lemma unnormalized_nonzero (u v : R) : Steps.unnormalized u v <> (0, 0, 0).
Proof.
  unfold Steps.unnormalized, Steps.unfolds, Steps.diamond. cbn.
  set (f_x := u * 2 - 1). set (f_y := v * 2 - 1).
  unfold Rltb. destruct (Rlt_dec (1 - Rabs f_x - Rabs f_y) 0) as [Hz | Hz].
  - destruct (Steps.fold f_x f_y) as [X Y]. intros Heq.
    injection Heq as _ Hnz _. lra.
  - intros Heq. injection Heq as Hx Hnz Hy.
    rewrite Hx, Hy, Rabs_R0 in Hnz. lra.
Qed.

Lemma decode_exact (u v : R) (dx dy dz : R) :
  Steps.unnormalized u v = (dx, dy, dz) ->
  OctTest.decode u v =
  Ok (dx / norm dx dy dz, dy / norm dx dy dz, dz / norm dx dy dz).
Proof.
  intros Hu. rewrite decode_steps, Hu. apply normalize_exact.
  rewrite <- Hu. apply unnormalized_nonzero.
Qed.

Lemma sumsq_perm (a b c : R) : sumsq a c b = sumsq a b c.
Proof. unfold sumsq. ring. Qed.

Lemma projected_exact (x y z : R) :
  (x, y, z) <> (0, 0, 0) -> Steps.projected x y z = Ok (octa x y z).
Proof.
  intros Hd. apply projected_unit.
  - now apply normalized_exact.
  - rewrite sumsq_perm. now apply sumsq_normalized.
Qed.

Lemma encode_exact (x y z : R) :
  (x, y, z) <> (0, 0, 0) ->
  OctTest.encode x y z =
  Ok (let '(p, q, r) := octa x y z in Steps.scaled (Steps.prescaled p q r)).
Proof.
  intros Hd. rewrite encode_steps, (projected_exact Hd). cbn [bind].
  now destruct (octa x y z) as [[p q] r].
Qed.

End Exact.

(** ** Properties of the codec *)

Import Exact.


















(** *** Fixtures *)

Lemma norm_unit (x y z : R) : sumsq x y z = 1 -> norm x y z = 1.
Proof. intros Hs. unfold norm. rewrite Hs. apply sqrt_1. Qed.

Lemma unit_nonzero (x y z : R) : sumsq x y z = 1 -> (x, y, z) <> (0, 0, 0).
Proof.
  intros Hs Heq. injection Heq as -> -> ->. unfold sumsq in Hs. lra.
Qed.

(** [encode] on a unit vector of the upper half of the octahedron. *)
Lemma encode_upper_octahedron (x y z : R) :
  sumsq x y z = 1 -> Rabs x + Rabs z + Rabs y = 1 -> 0 <= y ->
  OctTest.encode x y z = Ok (x * (1 / 2) + 1 / 2, z * (1 / 2) + 1 / 2).
Proof.
  intros Hs Hl Hy. rewrite (encode_exact (unit_nonzero Hs)).
  unfold octa. rewrite (norm_unit Hs), !Rdiv_1_r, l1norm_exact, Hl, !Rdiv_1_r.
  now rewrite prescaled_upper.
Qed.

(** [decode] in the central diamond. *)
Lemma decode_diamond (u v : R) (f_x f_y n_z : R) :
  u * 2 - 1 = f_x -> v * 2 - 1 = f_y -> 1 - Rabs f_x - Rabs f_y = n_z ->
  0 <= n_z ->
  OctTest.decode u v =
  Ok (f_x / norm f_x n_z f_y, n_z / norm f_x n_z f_y, f_y / norm f_x n_z f_y).
Proof.
  intros Hx Hy Hz Hn. apply decode_exact.
  unfold Steps.unnormalized, Steps.unfolds, Steps.diamond. cbn.
  rewrite Hx, Hy, Hz. now rewrite Rltb_false.
Qed.

Ltac eq_pair := apply f_equal; apply f_equal2; field.
Ltac eq_triple := apply f_equal; apply f_equal2; [apply f_equal2 |]; field.

(** C6 (fixtures).  [encode(0,1,0) = (0.5, 0.5)], [decode(0.5, 0.5) =
    (0,1,0)], [encode(1,0,0) = (1.0, 0.5)], [encode(0,0,1) = (0.5, 1.0)]
    and [decode(1.0, 0.5) = (1,0,0)]: exactly at exact reals, and bit for
    bit at binary64. *)
Theorem axis_fixtures :
  (OctTest.encode 0 1 0 = Ok (1 / 2, 1 / 2) /\
   OctTest.decode (1 / 2) (1 / 2) = Ok (0, 1, 0) /\
   OctTest.encode 1 0 0 = Ok (1, 1 / 2) /\
   OctTest.encode 0 0 1 = Ok (1 / 2, 1) /\
   OctTest.decode 1 (1 / 2) = Ok (1, 0, 0)) /\
  (OctTest.encode 0 1 0 = Ok (0.5, 0.5) /\
   OctTest.decode 0.5 0.5 = Ok (0, 1, 0) /\
   OctTest.encode 1 0 0 = Ok (1, 0.5) /\
   OctTest.encode 0 0 1 = Ok (0.5, 1) /\
   OctTest.decode 1 0.5 = Ok (1, 0, 0))%float.
Proof.
  split; [| repeat split; vm_compute; reflexivity].
  assert (H0 : Rabs 0 = 0) by apply Rabs_R0.
  assert (H1 : Rabs 1 = 1) by apply Rabs_R1.
  assert (Hy : sumsq 0 1 0 = 1) by (unfold sumsq; ring).
  assert (Hx : sumsq 1 0 0 = 1) by (unfold sumsq; ring).
  assert (Hz : sumsq 0 0 1 = 1) by (unfold sumsq; ring).
  repeat split.
  - rewrite (encode_upper_octahedron Hy) by (rewrite ?H0, ?H1; lra).
    eq_pair.
  - rewrite (@decode_diamond (1 / 2) (1 / 2) 0 0 1)
      by (rewrite ?H0; first [field | lra]).
    rewrite (norm_unit Hy). eq_triple.
  - rewrite (encode_upper_octahedron Hx) by (rewrite ?H0, ?H1; lra).
    eq_pair.
  - rewrite (encode_upper_octahedron Hz) by (rewrite ?H0, ?H1; lra).
    eq_pair.
  - rewrite (@decode_diamond 1 (1 / 2) 1 0 0)
      by (rewrite ?H0, ?H1; first [field | lra]).
    rewrite (norm_unit Hx). eq_triple.
Qed.

(** C7 (the two copies of [decode]).  The [decode] of oct_test.py and the
    [decode] of simulate_octa.py return the same result, or raise the same
    error, on every pair [(u, v)], whatever the carrier of the floats. *)
Theorem decode_copies_equal (F : Type) (A : PyFloat F) (u v : F) :
  OctTest.decode u v = SimulateOcta.decode u v.
Proof. reflexivity. Qed.

(** *** The sign factor at zero *)







(** ** Remarks on binary64

    The universal properties above are stated at exact reals.  At
    binary64 they hold up to rounding, and only while the squared length
    of the input stays in range. *)

(** The squared length of [(2^600, 0, 0)] overflows to infinity: the
    normalized vector is the zero vector and [denom] is the floor. *)
Example binary64_overflow :
  (Steps.normalized 0x1p600 0 0 = Ok (0, 0, 0) /\
   Steps.denom 0 0 0 = lit_1em5 /\
   OctTest.encode 0x1p600 0 0 = Ok (0.5, 0.5))%float.
Proof. repeat split; vm_compute; reflexivity. Qed.

(** The squared length of [(2^-600, 0, 0)] underflows to zero. *)
Example binary64_underflow :
  (OctTest.encode 0x1p-600 0 0 = Raise ZeroDivisionError)%float.
Proof. vm_compute. reflexivity. Qed.

(** A polar component below the rounding unit is lost in [denom]. *)
Example binary64_rounding :
  (OctTest.encode 1 (-0x1p-100) 0 = Ok (1, 0.5))%float.
Proof. vm_compute. reflexivity. Qed.

(** * The face classifier and the loops of the scripts *)

(** ** [sample_cubemap] *)

(** X1.  The keys [sample_cubemap] looks up are keys of [face_colors]: the
    lookup never raises [KeyError], on any carrier of the floats, and the
    result is one of the six colours of the table. *)
Theorem sample_cubemap_in_table (F : Type) (A : PyFloat F) (dirx diry dirz : F) :
  exists (key : string) (col : Z * Z * Z),
    In (key, col) SimulateOcta.face_colors /\
    SimulateOcta.sample_cubemap dirx diry dirz = Some col.
Proof.
  unfold SimulateOcta.sample_cubemap.
  repeat match goal with
         | |- context [if ?c then _ else _] => destruct c
         end;
    eexists _, _; (split; [| reflexivity]); cbn; tauto.
Qed.

(** [sample_cubemap] at exact reals, the lookups done. *)
Lemma sample_cubemap_exact (x y z : R) :
  SimulateOcta.sample_cubemap x y z =
  if Rgeb (Rabs x) (Rabs y) && Rgeb (Rabs x) (Rabs z) then
    if Rltb 0 x then Some (1, 0, 0)%Z else Some (0, 1, 0)%Z
  else if Rgeb (Rabs y) (Rabs x) && Rgeb (Rabs y) (Rabs z) then
    if Rltb 0 y then Some (0, 0, 1)%Z else Some (1, 1, 0)%Z
  else
    if Rltb 0 z then Some (1, 0, 1)%Z else Some (0, 1, 1)%Z.
Proof. reflexivity. Qed.

Lemma face_colors_exact :
  dict_get SimulateOcta.face_colors "+X" = Some (1, 0, 0)%Z /\
  dict_get SimulateOcta.face_colors "-X" = Some (0, 1, 0)%Z /\
  dict_get SimulateOcta.face_colors "+Y" = Some (0, 0, 1)%Z /\
  dict_get SimulateOcta.face_colors "-Y" = Some (1, 1, 0)%Z /\
  dict_get SimulateOcta.face_colors "+Z" = Some (1, 0, 1)%Z /\
  dict_get SimulateOcta.face_colors "-Z" = Some (0, 1, 1)%Z.
Proof. repeat split. Qed.

Ltac case_tests :=
  unfold Rgeb, Rltb in *;
  repeat match goal with
         | |- context [Rge_dec ?a ?b] => destruct (Rge_dec a b)
         | |- context [Rlt_dec ?a ?b] => destruct (Rlt_dec a b)
         end;
  cbn [andb].

Ltac conj := match goal with |- _ /\ _ => split end.

(** Closes [Some a = Some b <-> P], [P] a conjunction of comparisons. *)
Ltac iff_case :=
  split;
  [ let Heq := fresh "Heq" in
    intros Heq; first [discriminate Heq | clear Heq; case_abs; lra]
  | let Hc := fresh "Hc" in
    intros Hc; first [reflexivity | exfalso; case_abs; lra] ].

(** Rewrites the lookups and the calls of [sample_cubemap] of the goal
    into their values. *)
Ltac faces :=
  let H1 := fresh in let H2 := fresh in let H3 := fresh in
  let H4 := fresh in let H5 := fresh in let H6 := fresh in
  destruct face_colors_exact as (H1 & H2 & H3 & H4 & H5 & H6);
  rewrite ?H1, ?H2, ?H3, ?H4, ?H5, ?H6;
  clear H1 H2 H3 H4 H5 H6;
  rewrite ?sample_cubemap_exact.

(** X2.  The face [sample_cubemap] picks, with its tie-breaks: an X face when
    [|x|] is a largest absolute value, a Y face when [|y|] is one and
    exceeds [|x|], a Z face when [|z|] exceeds both; the positive face
    when that component is positive, the negative one otherwise. *)
Theorem sample_cubemap_faces (x y z : R) :
  (SimulateOcta.sample_cubemap x y z = dict_get SimulateOcta.face_colors "+X"
   <-> Rabs x >= Rabs y /\ Rabs x >= Rabs z /\ x > 0) /\
  (SimulateOcta.sample_cubemap x y z = dict_get SimulateOcta.face_colors "-X"
   <-> Rabs x >= Rabs y /\ Rabs x >= Rabs z /\ x <= 0) /\
  (SimulateOcta.sample_cubemap x y z = dict_get SimulateOcta.face_colors "+Y"
   <-> Rabs y > Rabs x /\ Rabs y >= Rabs z /\ y > 0) /\
  (SimulateOcta.sample_cubemap x y z = dict_get SimulateOcta.face_colors "-Y"
   <-> Rabs y > Rabs x /\ Rabs y >= Rabs z /\ y < 0) /\
  (SimulateOcta.sample_cubemap x y z = dict_get SimulateOcta.face_colors "+Z"
   <-> Rabs z > Rabs x /\ Rabs z > Rabs y /\ z > 0) /\
  (SimulateOcta.sample_cubemap x y z = dict_get SimulateOcta.face_colors "-Z"
   <-> Rabs z > Rabs x /\ Rabs z > Rabs y /\ z < 0).
Proof.
  faces. case_tests; repeat conj; iff_case.
Qed.

Lemma Rgeb_scale (k a b : R) : 0 < k -> Rgeb (k * a) (k * b) = Rgeb a b.
Proof. intros Hk. case_tests; try reflexivity; exfalso; nra. Qed.

Lemma Rltb_0_scale (k a : R) : 0 < k -> Rltb 0 (k * a) = Rltb 0 a.
Proof. intros Hk. case_tests; try reflexivity; exfalso; nra. Qed.

(** X3.  [sample_cubemap] reads the direction only: a positive multiple of a
    vector gets the face of the vector. *)
Theorem sample_cubemap_scale (k x y z : R) :
  0 < k ->
  SimulateOcta.sample_cubemap (k * x) (k * y) (k * z) =
  SimulateOcta.sample_cubemap x y z.
Proof.
  intros Hk. rewrite !sample_cubemap_exact, !Rabs_mult.
  rewrite (Rabs_pos_eq k) by lra.
  now rewrite !Rgeb_scale, !Rltb_0_scale by assumption.
Qed.

Lemma sample_cubemap_scale_witness :
  0 < 3 /\
  SimulateOcta.sample_cubemap (3 * 1) (3 * -2) (3 * 2) =
  SimulateOcta.sample_cubemap 1 (-2) 2.
Proof.
  assert (Hk : 0 < 3) by lra.
  split; [exact Hk | exact (@sample_cubemap_scale 3 1 (-2) 2 Hk)].
Defined.


(** X4.  Opposite directions get opposite faces, the zero vector apart (it gets
    the face ["-X"], and so does its opposite). *)
Theorem sample_cubemap_antipodal (x y z : R) :
  (x, y, z) <> (0, 0, 0) ->
  (SimulateOcta.sample_cubemap x y z = dict_get SimulateOcta.face_colors "+X"
   <-> SimulateOcta.sample_cubemap (- x) (- y) (- z) =
       dict_get SimulateOcta.face_colors "-X") /\
  (SimulateOcta.sample_cubemap x y z = dict_get SimulateOcta.face_colors "+Y"
   <-> SimulateOcta.sample_cubemap (- x) (- y) (- z) =
       dict_get SimulateOcta.face_colors "-Y") /\
  (SimulateOcta.sample_cubemap x y z = dict_get SimulateOcta.face_colors "+Z"
   <-> SimulateOcta.sample_cubemap (- x) (- y) (- z) =
       dict_get SimulateOcta.face_colors "-Z").
Proof.
  intros Hd.
  assert (Hnz : ~ (x = 0 /\ y = 0 /\ z = 0)).
  { intros (-> & -> & ->). now apply Hd. }
  clear Hd. faces. rewrite !Rabs_Ropp.
  case_tests; repeat conj; split; intros Heq;
    first [discriminate Heq | reflexivity | exfalso; clear Heq; case_abs; lra].
Qed.

Lemma sample_cubemap_antipodal_witness :
  (1, -2, 2) <> (0, 0, 0) /\
  (SimulateOcta.sample_cubemap 1 (-2) 2 = dict_get SimulateOcta.face_colors "+Y"
   <-> SimulateOcta.sample_cubemap (- 1) (- -2) (- 2) =
       dict_get SimulateOcta.face_colors "-Y").
Proof.
  assert (Hd : (1, -2, 2) <> (0, 0, 0)) by (intros Heq; injection Heq; lra).
  split; [exact Hd | exact (proj1 (proj2 (sample_cubemap_antipodal Hd)))].
Defined.

(** ** [decode] on every pair, and the loop of simulate_octa.py *)






(** ** More on [encode] and [decode] *)

























(** * The code at binary64 *)

(** ** Which errors [encode] and [decode] raise *)

Module Binary64.
Import SpecFloat FloatOps.

Lemma round_aux_nonneg (m e : Z) (l : location) :
  nonneg (binary_round_aux prec emax false m e l) = true.
Proof.
  unfold binary_round_aux.
  destruct (shr_fexp prec emax m e l) as [mrs' e'].
  destruct (shr_fexp prec emax _ e' loc_Exact) as [mrs'' e''].
  destruct (shr_m mrs''); [reflexivity | | reflexivity].
  now destruct (Z.leb e'' (emax - prec)).
Qed.

Lemma mul_self_nonneg (f : spec_float) : nonneg (SF64mul f f) = true.
Proof.
  destruct f as [s | s | | s m e]; try reflexivity.
  - now destruct s.
  - unfold SF64mul, SFmul. replace (xorb s s) with false by now destruct s.
    apply round_aux_nonneg.
Qed.

Lemma add_nonneg (f g : spec_float) :
  nonneg f = true -> nonneg g = true -> nonneg (SF64add f g) = true.
Proof.
  destruct f as [s | s | | s m e], g as [t | t | | t n e'];
    cbn [nonneg]; intros Hf Hg; try reflexivity; try assumption;
    try (destruct s; try discriminate Hf); try (destruct t; try discriminate Hg);
    try reflexivity.
  unfold SF64add, SFadd, binary_normalize, binary_round. cbn [cond_Zopp Z.add].
  destruct (shl_align _ _ _) as [mz ez]. apply round_aux_nonneg.
Qed.

Lemma nonneg_not_below_zero (f : spec_float) :
  nonneg f = true -> SFltb f (S754_zero false) = false.
Proof. destruct f as [s | s | | s m e]; try reflexivity; now destruct s. Qed.

(** The argument of [math.sqrt] in [encode] and [decode] is never
    negative. *)
Lemma sumsq_root (x y z : float) :
  math_sqrt (f_add (f_add (f_mul x x) (f_mul y y)) (f_mul z z)) =
  Ok (PrimFloat.sqrt (x * x + y * y + z * z)%float).
Proof.
  unfold math_sqrt. cbn [f_ltb f_add f_mul f_root lit_0 PyFloat_binary64].
  rewrite FloatAxioms.ltb_spec, !FloatAxioms.add_spec, !FloatAxioms.mul_spec.
  change (Prim2SF 0) with (S754_zero false).
  now rewrite nonneg_not_below_zero
    by (repeat apply add_nonneg; apply mul_self_nonneg).
Qed.

(** [denom] is never zero: the floor takes over from a zero L1 norm. *)
Lemma floor_nonzero (s : float) :
  f_eqb (py_max s lit_1em5) lit_0 = false.
Proof.
  unfold py_max. cbn [f_ltb f_eqb lit_0 lit_1em5 PyFloat_binary64].
  destruct (PrimFloat.ltb s _) eqn:Hlt; [reflexivity |].
  rewrite FloatAxioms.ltb_spec in Hlt. rewrite FloatAxioms.eqb_spec.
  change (Prim2SF 0) with (S754_zero false).
  destruct (Prim2SF s) as [b | b | | b m e]; try reflexivity.
  - vm_compute in Hlt. discriminate Hlt.
  - now destruct b.
  - now destruct b.
Qed.

Lemma div_by_denom (a s : float) :
  py_div a (py_max s lit_1em5) = Ok (f_quot a (py_max s lit_1em5)).
Proof. unfold py_div. now rewrite floor_nonzero. Qed.
End Binary64.

Import Binary64.

(** The three divisions by the length, at binary64. *)
Lemma divisions_by_length (a b c len : float) :
  (PrimFloat.eqb len 0 = true /\
   (x <- py_div a len ;; y <- py_div b len ;; z <- py_div c len ;;
    Ok (x, y, z))%py = Raise ZeroDivisionError) \/
  (PrimFloat.eqb len 0 = false /\
   (x <- py_div a len ;; y <- py_div b len ;; z <- py_div c len ;;
    Ok (x, y, z))%py = Ok (a / len, b / len, c / len)%float).
Proof.
  unfold py_div. cbn [f_eqb f_quot lit_0 PyFloat_binary64].
  destruct (PrimFloat.eqb len 0); [left | right]; now split.
Qed.

(** X15.  At binary64 [decode] raises no [ValueError], whatever the floats it
    is given (infinities and NaN included): it returns a triple, unless
    the length it computes is zero and its first division raises
    [ZeroDivisionError]. *)
Theorem decode_errors_binary64 (u v : float) :
  exists n_x n_z n_y : float,
    Steps.unnormalized u v = (n_x, n_z, n_y) /\
    let length := PrimFloat.sqrt (n_x * n_x + n_z * n_z + n_y * n_y)%float in
    (PrimFloat.eqb length 0 = true /\
     OctTest.decode u v = Raise ZeroDivisionError /\
     SimulateOcta.decode u v = Raise ZeroDivisionError) \/
    (PrimFloat.eqb length 0 = false /\
     OctTest.decode u v = Ok (n_x / length, n_z / length, n_y / length)%float /\
     SimulateOcta.decode u v =
       Ok (n_x / length, n_z / length, n_y / length)%float).
Proof.
  change (SimulateOcta.decode u v) with (OctTest.decode u v).
  rewrite decode_steps.
  destruct (Steps.unnormalized u v) as [[n_x n_z] n_y].
  exists n_x, n_z, n_y. split; [reflexivity |]. cbv zeta.
  unfold Steps.normalize. rewrite sumsq_root. cbn [bind].
  destruct (divisions_by_length n_x n_z n_y
              (PrimFloat.sqrt (n_x * n_x + n_z * n_z + n_y * n_y)))
    as [[Hz Hd] | [Hz Hd]]; [left | right]; now rewrite Hd.
Qed.

Lemma normalized_binary64 (x y z : float) :
  let length := PrimFloat.sqrt (x * x + y * y + z * z)%float in
  (PrimFloat.eqb length 0 = true /\
   Steps.normalized x y z = Raise ZeroDivisionError) \/
  (PrimFloat.eqb length 0 = false /\
   Steps.normalized x y z = Ok (x / length, z / length, y / length)%float).
Proof.
  cbv zeta. unfold Steps.normalized. rewrite sumsq_root. cbn [bind].
  unfold py_div. cbn [f_eqb f_quot lit_0 PyFloat_binary64].
  destruct (PrimFloat.eqb _ 0); [left | right]; now split.
Qed.

(** X16.  At binary64 [encode] raises no [ValueError] either, and none of its
    divisions by [denom] fails: it returns a pair, unless the length it
    computes is zero (the zero vector, or a vector whose squares underflow)
    and its first division raises [ZeroDivisionError]. *)
Theorem encode_errors_binary64 (x y z : float) :
  let length := PrimFloat.sqrt (x * x + y * y + z * z)%float in
  (PrimFloat.eqb length 0 = true /\
   OctTest.encode x y z = Raise ZeroDivisionError) \/
  (PrimFloat.eqb length 0 = false /\
   Steps.normalized x y z = Ok (x / length, z / length, y / length)%float /\
   exists u v : float, OctTest.encode x y z = Ok (u, v)).
Proof.
  cbv zeta. rewrite encode_steps. unfold Steps.projected.
  destruct (normalized_binary64 x y z) as [[Hz Hn] | [Hz Hn]];
    cbv zeta in Hz, Hn; rewrite Hn; cbn [bind]; [left; now split | right].
  split; [exact Hz |]. split; [reflexivity |].
  unfold Steps.denom. rewrite !div_by_denom. cbn [bind].
  destruct (Steps.scaled _) as [u v]. eauto.
Qed.

(** ** [sample_cubemap] on a NaN *)

Lemma nan_spec (a : float) :
  PrimFloat.is_nan a = true -> FloatOps.Prim2SF a = SpecFloat.S754_nan.
Proof. intros Ha. unfold FloatOps.Prim2SF. now rewrite Ha. Qed.

Lemma geb_nan_l (a b : float) :
  PrimFloat.is_nan a = true -> f_geb (f_abs a) b = false.
Proof.
  intros Ha. cbn [f_geb f_abs PyFloat_binary64].
  rewrite FloatAxioms.leb_spec, FloatAxioms.abs_spec, (nan_spec a Ha).
  now destruct (FloatOps.Prim2SF b).
Qed.

Lemma geb_nan_r (a b : float) :
  PrimFloat.is_nan a = true -> f_geb b (f_abs a) = false.
Proof.
  intros Ha. cbn [f_geb f_abs PyFloat_binary64].
  now rewrite FloatAxioms.leb_spec, FloatAxioms.abs_spec, (nan_spec a Ha).
Qed.

(** X17.  A NaN component makes both magnitude tests fail: [sample_cubemap]
    falls through to the Z faces, whatever the other components are, and
    picks between them by the test [dirz > 0]. *)
Theorem sample_cubemap_nan (x y z : float) :
  (PrimFloat.is_nan x || PrimFloat.is_nan y || PrimFloat.is_nan z) = true ->
  SimulateOcta.sample_cubemap x y z =
  if PrimFloat.ltb 0 z then dict_get SimulateOcta.face_colors "+Z"
  else dict_get SimulateOcta.face_colors "-Z".
Proof.
  intros Hnan. unfold SimulateOcta.sample_cubemap. cbv zeta.
  assert (H1 : f_geb (f_abs x) (f_abs y) && f_geb (f_abs x) (f_abs z) = false).
  { destruct (PrimFloat.is_nan x) eqn:Hx;
      [now rewrite (geb_nan_l x _ Hx) |].
    destruct (PrimFloat.is_nan y) eqn:Hy;
      [now rewrite (geb_nan_r y _ Hy) |].
    cbn [orb] in Hnan. rewrite (geb_nan_r z _ Hnan). apply andb_false_r. }
  assert (H2 : f_geb (f_abs y) (f_abs x) && f_geb (f_abs y) (f_abs z) = false).
  { destruct (PrimFloat.is_nan x) eqn:Hx;
      [now rewrite (geb_nan_r x _ Hx) |].
    destruct (PrimFloat.is_nan y) eqn:Hy;
      [now rewrite (geb_nan_l y _ Hy) |].
    cbn [orb] in Hnan. rewrite (geb_nan_r z _ Hnan). apply andb_false_r. }
  now rewrite H1, H2.
Qed.

Lemma sample_cubemap_nan_witness :
  (PrimFloat.is_nan nan || PrimFloat.is_nan 3 || PrimFloat.is_nan (-1))%float
  = true /\
  SimulateOcta.sample_cubemap nan 3%float (-1)%float =
  dict_get SimulateOcta.face_colors "-Z".
Proof.
  assert (Hn : (PrimFloat.is_nan nan || PrimFloat.is_nan 3
                || PrimFloat.is_nan (-1))%float = true) by reflexivity.
  split; [exact Hn | exact (sample_cubemap_nan nan 3 (-1) Hn)].
Defined.

(** ** The loops of the scripts at binary64 *)

(** X18.  The loop of oct_test.py runs to its end: it prints its eight lines
    and no call raises.  Every pair printed is in the unit square, every
    decoded direction is the normalized sample within [2^-52] on each
    component, and the six axis samples come back exactly. *)
Theorem oct_test_main_binary64 :
  snd (@OctTest.main float _) = None /\
  map (fun line => fst (fst line)) (fst (@OctTest.main float _)) =
    OctTest.samples /\
  forallb (roundtrip_within 0x1p-52) (fst (@OctTest.main float _)) = true /\
  map snd (firstn 6 (fst (@OctTest.main float _))) = firstn 6 OctTest.samples.
Proof. repeat split; vm_compute; reflexivity. Qed.

(** X19.  The loop of simulate_octa.py runs to its end on its nine samples: no
    call raises, and the colours printed are those of the faces
    [+Y -X +X -Z +Z -Y -Y -Y -Y]. *)
Theorem simulate_main_binary64 :
  snd (SimulateOcta.main samples_binary64) = None /\
  map (fun line => fst (fst line)) (fst (SimulateOcta.main samples_binary64)) =
    samples_binary64 /\
  map (fun line => Some (snd line)) (fst (SimulateOcta.main samples_binary64)) =
    map (dict_get SimulateOcta.face_colors)
      ["+Y"; "-X"; "+X"; "-Z"; "+Z"; "-Y"; "-Y"; "-Y"; "-Y"]%string.
Proof. repeat split; vm_compute; reflexivity. Qed.
